(** * fgb_fb_bot: the follower greeter webhook (src/fgb_fb_bot/main.py)

    A shallow embedding of the helper functions and of the two routes
    [/reply] and [/test-nurse], with the properties of the classification
    and templating logic proved over it.

    Python strings are sequences of Unicode code points, so a [str] is a
    list of code points here; dictionaries are finite maps; a call that can
    raise returns an [outcome]. *)

From Stdlib Require Import NArith String Ascii.
From stdpp Require Import base option list gmap.

Local Open Scope N_scope.

(** ** Strings *)

Abbreviation pystr := (list N) (only parsing).

(** [request.headers.items()]: the header lines in order; a name can occur
    more than once, and in any case. *)
Abbreviation headers_t := (list (pystr * pystr)) (only parsing).

(** An ASCII literal of the source as a Python string. *)
Definition str (s : string) : pystr :=
  N_of_ascii <$> list_ascii_of_string s.

(** [needle in hay] on two strings: the substring test. *)
Fixpoint startswith (hay needle : pystr) {struct needle} : bool :=
  match needle, hay with
  | [], _ => true
  | _ :: _, [] => false
  | c :: needle', d :: hay' => bool_decide (c = d) && startswith hay' needle'
  end.

Fixpoint contains (needle hay : pystr) : bool :=
  startswith hay needle ||
  match hay with
  | [] => false
  | _ :: hay' => contains needle hay'
  end.

(** [any(p(x) for x in xs)] *)
Definition any {A} (p : A → bool) (xs : list A) : bool := existsb p xs.

(** What [needle in hay] means: [needle] occurs as a contiguous block. *)
Definition occurs_in (needle hay : pystr) : Prop :=
  ∃ before after, hay = before ++ needle ++ after.

(** ** The string methods of the interpreter

    [str.lower] and [str.strip] are not part of the repository: they are
    driven by the Unicode tables of the interpreter.  They are taken as
    parameters, with the facts about them that do not depend on those
    tables: on a string of ASCII characters [lower] maps [A]..[Z] to
    [a]..[z] and nothing else, [strip] removes the leading and trailing
    ASCII white space, and lowering never shortens a string. *)

Definition is_ascii (s : pystr) : bool := forallb (λ c, c <? 128) s.

Definition ascii_lower_char (c : N) : N :=
  if (65 <=? c) && (c <=? 90) then c + 32 else c.

Definition ascii_lower (s : pystr) : pystr := ascii_lower_char <$> s.

(** The ASCII characters for which [str.isspace] holds: tab, line feed,
    vertical tab, form feed, carriage return, the four separators
    [0x1c]..[0x1f], and the space. *)
Definition ascii_isspace (c : N) : bool :=
  ((9 <=? c) && (c <=? 13)) || ((28 <=? c) && (c <=? 32)).

Fixpoint lstrip (s : pystr) : pystr :=
  match s with
  | c :: s' => if ascii_isspace c then lstrip s' else s
  | [] => []
  end.

Definition ascii_strip (s : pystr) : pystr :=
  reverse (lstrip (reverse (lstrip s))).

Class PyStr := {
  lower : pystr → pystr;
  strip : pystr → pystr;
  lower_ascii : ∀ s, is_ascii s = true → lower s = ascii_lower s;
  strip_ascii : ∀ s, is_ascii s = true → strip s = ascii_strip s;
  lower_length : ∀ s, (length s ≤ length (lower s))%nat;
}.

(** ** Outcomes of calls that can raise *)

Inductive exn :=
  | KeyError (k : pystr)
  | IndexError
  | ValueError.

(** [Beyond]: the call leaves the part of [str.format] that is modelled
    (see [format] below). *)
Inductive outcome (A : Type) :=
  | Ok (a : A)
  | Raise (e : exn)
  | Beyond.
Arguments Ok {A} a.
Arguments Raise {A} e.
Arguments Beyond {A}.

Instance outcome_bind : MBind outcome := λ A B k m,
  match m with
  | Ok a => k a
  | Raise e => Raise e
  | Beyond => Beyond
  end.


(** [d[k]] on a dictionary. *)
Definition getitem {V} (d : gmap pystr V) (k : pystr) : outcome V :=
  match d !! k with
  | Some v => Ok v
  | None => Raise (KeyError k)
  end.

(** ** [str.format] with keyword arguments only

    The format string is read from left to right.  Outside a replacement
    field, a doubled brace stands for one brace, a single closing brace is
    an error, and a single opening brace starts a field.  The field runs to
    the next closing brace; an opening brace inside it, or the end of the
    string, is an error.  An empty field is a positional one, and there are
    no positional arguments; any other name is looked up among the keyword
    arguments, and the value, a string, is copied to the output as it is.

    Conversions ([!]), format specifications ([:]), attribute and index
    access ([.], [[]), explicit positional indices and names outside ASCII
    are not modelled: such a field gives [Beyond]. *)

Definition field_special (c : N) : bool :=
  (c =? 46) || (c =? 91) || (c =? 33) || (c =? 58) || (128 <=? c).

Definition is_index (field : pystr) : bool :=
  forallb (λ c, (48 <=? c) && (c <=? 57)) field.

Definition get_field (kw : gmap pystr pystr) (field : pystr) : outcome pystr :=
  match field with
  | [] => Raise IndexError
  | _ => if is_index field then Beyond else getitem kw field
  end.

(** [field]: [None] outside a replacement field, [Some f] inside one whose
    name read so far is [f]. *)
Fixpoint format_from (kw : gmap pystr pystr) (field : option pystr)
    (s : pystr) : outcome pystr :=
  match field, s with
  | None, [] => Ok []
  | None, c :: s' =>
      if c =? 123 then
        match s' with
        | [] => Raise ValueError
        | d :: s'' =>
            if d =? 123 then rest ← format_from kw None s''; Ok (123 :: rest)
            else format_from kw (Some []) s'
        end
      else if c =? 125 then
        match s' with
        | [] => Raise ValueError
        | d :: s'' =>
            if d =? 125 then rest ← format_from kw None s''; Ok (125 :: rest)
            else Raise ValueError
        end
      else rest ← format_from kw None s'; Ok (c :: rest)
  | Some f, [] => Raise ValueError
  | Some f, c :: s' =>
      if c =? 125 then
        v ← get_field kw f; rest ← format_from kw None s'; Ok (v ++ rest)
      else if c =? 123 then Raise ValueError
      else if field_special c then Beyond
      else format_from kw (Some (f ++ [c])) s'
  end.

Definition format (t : pystr) (kw : gmap pystr pystr) : outcome pystr :=
  format_from kw None t.

Definition render_template (t : pystr) (kw : gmap pystr pystr) : outcome pystr :=
  format t kw.

(** *** The reading of a format string, apart from the arguments

    [scan_from] runs the same automaton as [format_from] and records what
    it reads: literal characters and replacement fields, and how the
    reading ends.  It is what "the template references a placeholder"
    stands for in the statements below. *)

Inductive piece :=
  | Lit (c : N)
  | Field (f : pystr).

Inductive scan_end :=
  | Done
  | Malformed
  | Unmodelled.

Fixpoint scan_from (field : option pystr) (s : pystr) : list piece * scan_end :=
  match field, s with
  | None, [] => ([], Done)
  | None, c :: s' =>
      if c =? 123 then
        match s' with
        | [] => ([], Malformed)
        | d :: s'' =>
            if d =? 123 then prod_map (cons (Lit 123)) id (scan_from None s'')
            else scan_from (Some []) s'
        end
      else if c =? 125 then
        match s' with
        | [] => ([], Malformed)
        | d :: s'' =>
            if d =? 125 then prod_map (cons (Lit 125)) id (scan_from None s'')
            else ([], Malformed)
        end
      else prod_map (cons (Lit c)) id (scan_from None s')
  | Some f, [] => ([], Malformed)
  | Some f, c :: s' =>
      if c =? 125 then prod_map (cons (Field f)) id (scan_from None s')
      else if c =? 123 then ([], Malformed)
      else if field_special c then ([], Unmodelled)
      else scan_from (Some (f ++ [c])) s'
  end.

Definition scan (t : pystr) : list piece * scan_end := scan_from None t.




(** Filling the pieces in from the keyword arguments. *)
Fixpoint fill (kw : gmap pystr pystr) (ps : list piece) (e : scan_end)
    : outcome pystr :=
  match ps with
  | [] =>
      match e with
      | Done => Ok []
      | Malformed => Raise ValueError
      | Unmodelled => Beyond
      end
  | Lit c :: ps' => rest ← fill kw ps' e; Ok (c :: rest)
  | Field f :: ps' => v ← get_field kw f; rest ← fill kw ps' e; Ok (v ++ rest)
  end.

(** ** Helper functions *)

Section helpers.
Context `{PyStr}.

(** [{k.lower(): v for k, v in headers.items()}]: a later line replaces an
    earlier one with the same lowered name. *)
Definition lowered (headers : headers_t) : gmap pystr pystr :=
  foldl (λ h kv, <[lower kv.1 := kv.2]> h) ∅ headers.

Definition detect_platform (headers : headers_t) : pystr :=
  let h := lowered headers in
  match h !! str "x-hub-signature" with
  | Some v =>
      if contains (str "instagram") (lower v) then str "instagram"
      else str "facebook"
  | None =>
      if bool_decide (is_Some (h !! str "tiktok-signature")) then str "tiktok"
      else if bool_decide (is_Some (h !! str "x-twitter-auth")) then str "x"
      else str "unknown"
  end.

Definition urgent_words : list pystr :=
  [ str "help"; str "urgent"; str "problem"; str "question";
    str "issue"; str "support"; str "can you"; str "please"; str "???" ].

(** The string literal iterated over by the last test of
    [needs_manual_reply]; it holds six code points: U+1F642, U+1F60A,
    U+1F622, U+1F62D, and the heart U+2764 followed by the variation
    selector U+FE0F. *)
Definition emoji_chars : pystr :=
  [ 0x1F642; 0x1F60A; 0x1F622; 0x1F62D; 0x2764; 0xFE0F ].

Definition needs_manual_reply (text : pystr) : bool :=
  match text with
  | [] => false
  | _ =>
      let t := lower text in
      if any (λ w, contains w t) urgent_words then true
      else if bool_decide (40 < length t)%nat then true
      else if any (λ ch, contains [ch] text) emoji_chars then true
      else false
  end.

Definition nurse_greeting (name : pystr) : pystr :=
  str "Hello " ++ name ++ str ". How are you today? Is there anything you need?".

Definition pick (lst : list pystr) : pystr :=
  match lst with
  | x :: _ => x
  | [] => []
  end.

Definition bad : list pystr :=
  [ str "buy followers"; str "crypto"; str "viagra"; str "casino"; str "loan" ].

Definition is_spam (t : pystr) : bool :=
  let t := strip (lower t) in
  any (λ x, contains x t) bad.

End helpers.

(** ** App and configuration *)

(** The body of a request.  The default of [name], "friend", is filled in
    when the request is parsed, before the handler runs. *)
Record Message := { name : pystr; text : pystr }.

(** The template table; U+2019 is the apostrophe and U+2014 the dash of the
    welcome template. *)
Definition DEFAULT_TEMPLATES : gmap pystr (gmap pystr (list pystr)) :=
  {[ str "welcome" :=
       {[ str "warm" :=
            [ str "Hey {NAME}! I" ++ [0x2019] ++
              str "m {BRAND_NAME}. What are you into " ++ [0x2014] ++
              str " guitars, lyrics, or good vibes?" ] ]};
     str "probe" :=
       {[ str "pro" :=
            [ str "Hello {NAME}. Are you interested in new releases, catalogue links, or something else?" ] ]};
     str "boundary" :=
       {[ str "pro" :=
            [ str "Hello {NAME}. This inbox is for music-related chat." ] ]} ]}.

(** A JSON value of a response. *)
Inductive value :=
  | VStr (s : pystr)
  | VBool (b : bool)
  | VDict (d : gmap pystr pystr).

(** ** Routes *)

Section routes.
Context `{PyStr}.
(** The environment of the process, read once by [os.getenv]. *)
Variable environ : gmap pystr pystr.

Definition getenv (k default : pystr) : pystr :=
  match environ !! k with
  | Some v => v
  | None => default
  end.

Definition BRAND_NAME : pystr := getenv (str "BRAND_NAME") (str "Captain Lethargy").
Definition NURSE_MEDIA_URL : pystr := getenv (str "NURSE_MEDIA_URL") [].
Definition NURSE_CURTAIN_URL : pystr := getenv (str "NURSE_CURTAIN_URL") [].
Definition NURSE_BED_URL : pystr := getenv (str "NURSE_BED_URL") [].
Definition NURSE_NIL_URL : pystr := getenv (str "NURSE_NIL_URL") [].

Definition health : gmap pystr value :=
  {[ str "ok" := VBool true; str "brand" := VStr BRAND_NAME ]}.

Definition reply (msg : Message) (headers : headers_t) : outcome (gmap pystr value) :=
  let platform := detect_platform headers in
  let manual_required := needs_manual_reply (text msg) in
  if is_spam (text msg) then
    by_style ← getitem DEFAULT_TEMPLATES (str "boundary");
    lst ← getitem by_style (str "pro");
    reply_text ← render_template (pick lst)
      {[ str "NAME" := name msg; str "BRAND_NAME" := BRAND_NAME ]};
    Ok {[ str "reply" := VStr reply_text;
          str "platform" := VStr platform;
          str "manual_required" := VBool manual_required ]}
  else
    let t := lower (text msg) in
    if contains (str "nurse") t then
      let reply_text := nurse_greeting (name msg) in
      Ok {[ str "reply" := VStr reply_text;
            str "platform" := VStr platform;
            str "manual_required" := VBool manual_required;
            str "nurse_images" := VDict
              {[ str "main" := NURSE_MEDIA_URL;
                 str "curtain" := NURSE_CURTAIN_URL;
                 str "bed" := NURSE_BED_URL;
                 str "nil_by_mouth" := NURSE_NIL_URL ]} ]}
    else if any (λ word, contains word t)
              [str "hi"; str "hello"; str "hey"; str "yo"] then
      by_style ← getitem DEFAULT_TEMPLATES (str "welcome");
      lst ← getitem by_style (str "warm");
      reply_text ← render_template (pick lst)
        {[ str "NAME" := name msg; str "BRAND_NAME" := BRAND_NAME ]};
      Ok {[ str "reply" := VStr reply_text;
            str "platform" := VStr platform;
            str "manual_required" := VBool manual_required ]}
    else
      by_style ← getitem DEFAULT_TEMPLATES (str "probe");
      lst ← getitem by_style (str "pro");
      reply_text ← render_template (pick lst)
        {[ str "NAME" := name msg; str "BRAND_NAME" := BRAND_NAME ]};
      Ok {[ str "reply" := VStr reply_text;
            str "platform" := VStr platform;
            str "manual_required" := VBool manual_required ]}.

Definition test_nurse (headers : headers_t) : gmap pystr value :=
  let msg := {| name := str "Keith"; text := str "nurse" |} in
  let platform := detect_platform headers in
  let manual_required := needs_manual_reply (text msg) in
  let reply_text := nurse_greeting (name msg) in
  {[ str "reply" := VStr reply_text;
     str "platform" := VStr platform;
     str "manual_required" := VBool manual_required;
     str "nurse_images" := VDict
       {[ str "main" := NURSE_MEDIA_URL;
          str "curtain" := NURSE_CURTAIN_URL;
          str "bed" := NURSE_BED_URL;
          str "nil_by_mouth" := NURSE_NIL_URL ]} ]}.

End routes.

(** ** The responses, as the statements name them *)

Definition boundary_template : pystr :=
  str "Hello {NAME}. This inbox is for music-related chat.".

Definition welcome_template : pystr :=
  str "Hey {NAME}! I" ++ [0x2019] ++
  str "m {BRAND_NAME}. What are you into " ++ [0x2014] ++
  str " guitars, lyrics, or good vibes?".

Definition probe_template : pystr :=
  str "Hello {NAME}. Are you interested in new releases, catalogue links, or something else?".

Definition boundary_text (who : pystr) : pystr :=
  str "Hello " ++ who ++ str ". This inbox is for music-related chat.".

Definition welcome_text (who brand : pystr) : pystr :=
  str "Hey " ++ who ++ str "! I" ++ [0x2019] ++ str "m " ++ brand ++
  str ". What are you into " ++ [0x2014] ++
  str " guitars, lyrics, or good vibes?".

Definition probe_text (who : pystr) : pystr :=
  str "Hello " ++ who ++
  str ". Are you interested in new releases, catalogue links, or something else?".

Definition nurse_images (environ : gmap pystr pystr) : gmap pystr pystr :=
  {[ str "main" := NURSE_MEDIA_URL environ;
     str "curtain" := NURSE_CURTAIN_URL environ;
     str "bed" := NURSE_BED_URL environ;
     str "nil_by_mouth" := NURSE_NIL_URL environ ]}.

Definition plain_payload (reply_text platform : pystr) (manual_required : bool)
    : gmap pystr value :=
  {[ str "reply" := VStr reply_text;
     str "platform" := VStr platform;
     str "manual_required" := VBool manual_required ]}.

Definition nurse_payload (environ : gmap pystr pystr)
    (reply_text platform : pystr) (manual_required : bool) : gmap pystr value :=
  {[ str "reply" := VStr reply_text;
     str "platform" := VStr platform;
     str "manual_required" := VBool manual_required;
     str "nurse_images" := VDict (nurse_images environ) ]}.

Definition template_kw (environ : gmap pystr pystr) (msg : Message)
    : gmap pystr pystr :=
  {[ str "NAME" := name msg; str "BRAND_NAME" := BRAND_NAME environ ]}.

(** The platform tags. *)
Definition platform_tags : list pystr :=
  [ str "facebook"; str "instagram"; str "tiktok"; str "x"; str "unknown" ].

(** The header collection has a line for [name], written in any case. *)
Definition has_header `{PyStr} (headers : headers_t) (name : pystr) : Prop :=
  ∃ k v, (k, v) ∈ headers ∧ lower k = name.

(** The last line for [name] in the header collection carries the value
    [v]; lines for other names may follow it. *)
Definition last_header `{PyStr} (headers : headers_t) (name v : pystr) : Prop :=
  ∃ before k after,
    headers = before ++ (k, v) :: after ∧
    lower k = name ∧
    ¬ has_header after name.

(** The words of the greeting branch. *)
Definition greeting_words : list pystr :=
  [str "hi"; str "hello"; str "hey"; str "yo"].

(** The five emoji characters of the specification: the literal of
    [needs_manual_reply] without the variation selector that follows the
    heart. *)
Definition five_emoji : list N :=
  [ 0x1F642; 0x1F60A; 0x1F622; 0x1F62D; 0x2764 ].

(** Inputs at which the statements below are evaluated. *)
Definition hub_instagram : headers_t :=
  [(str "X-Hub-Signature", str "sha1=Instagram")].

Definition long_text : pystr :=
  str "I was wondering whether you ever play in Lisbon".

Definition ana_hey : Message := {| name := str "Ana"; text := str "hey" |}.

Definition ana_nurse_crypto : Message :=
  {| name := str "Ana"; text := str "nurse crypto" |}.

Definition ana_this : Message := {| name := str "Ana"; text := str "this" |}.

Definition ana_your : Message := {| name := str "Ana"; text := str "Your" |}.

Definition ana_casino : Message :=
  {| name := str "Ana"; text := str "Casino night" |}.

Definition ana_nurse : Message :=
  {| name := str "Ana"; text := str "Is the NURSE in?" |}.



(** The same header twice, with two values. *)
Definition hub_twice : headers_t :=
  [(str "x-hub-signature", str "instagram"); (str "X-Hub-Signature", str "sha1=abc")].

(** The keys of the images block. *)
Definition nurse_image_keys : gset pystr :=
  {[ str "main"; str "curtain"; str "bed"; str "nil_by_mouth" ]}.

(** The sun emoji: U+2600 and the variation selector. *)
Definition sun_emoji : pystr := [0x2600; 0xFE0F].

(** *** For the further properties *)

(** The three header names the detector looks at. *)
Definition hub_name : pystr := str "x-hub-signature".
Definition tiktok_name : pystr := str "tiktok-signature".
Definition twitter_name : pystr := str "x-twitter-auth".

(** The header lines with their names lowered by the ASCII rule. *)
Definition lower_names (headers : headers_t) : headers_t :=
  (λ kv, (ascii_lower kv.1, kv.2)) <$> headers.

Definition ascii_names (headers : headers_t) : bool :=
  forallb (λ kv, is_ascii kv.1) headers.

(** A string that neither starts nor ends with ASCII white space, and is
    not empty. *)
Definition trimmed (x : pystr) : bool :=
  match x, reverse x with
  | c :: _, d :: _ => negb (ascii_isspace c) && negb (ascii_isspace d)
  | _, _ => false
  end.

Definition is_brace (c : N) : bool := (c =? 123) || (c =? 125).

Definition no_braces (t : pystr) : bool := forallb (λ c, negb (is_brace c)) t.

(** A text with every brace doubled. *)
Fixpoint escape_braces (s : pystr) : pystr :=
  match s with
  | [] => []
  | c :: s' =>
      if is_brace c then c :: c :: escape_braces s' else c :: escape_braces s'
  end.

(** The keys of a response. *)
Definition plain_keys : gset pystr :=
  {[ str "reply"; str "platform"; str "manual_required" ]}.

Definition nurse_keys : gset pystr :=
  {[ str "reply"; str "platform"; str "manual_required"; str "nurse_images" ]}.

(** The environment variables the module reads. *)
Definition config_names : list pystr :=
  [ str "BRAND_NAME"; str "NURSE_MEDIA_URL"; str "NURSE_CURTAIN_URL";
    str "NURSE_BED_URL"; str "NURSE_NIL_URL" ].

(** More inputs. *)
Definition all_three : headers_t :=
  [ (str "TikTok-Signature", str "t=1");
    (str "X-Hub-Signature", str "sha1=abc");
    (str "X-Twitter-Auth", str "token") ].

Definition content_type : pystr * pystr :=
  (str "Content-Type", str "application/json").

Definition shouted_names : headers_t :=
  [ (str "TIKTOK-SIGNATURE", str "t=1"); (str "Accept", str "*/*") ].

Definition padded_spam : pystr := str "  Free CASINO chips  ".

Definition other_environ : gmap pystr pystr := {[ str "PATH" := str "/usr/bin" ]}.

(** The ASCII rules applied to every string: an instance of the
    interpreter's methods.  It agrees with the interpreter on every string
    whose characters are ASCII, or have no case mapping and are not white
    space (emoji, for one). *)
Instance ascii_pystr : PyStr :=
  {| lower := ascii_lower;
     strip := ascii_strip;
     lower_ascii := λ _ _, eq_refl;
     strip_ascii := λ _ _, eq_refl;
     lower_length := λ s,
       eq_ind_r (λ n, (length s ≤ n)%nat) (le_n _) (length_fmap ascii_lower_char s) |}.

(** * Properties *)

(** ** Substrings *)

Lemma startswith_spec (hay needle : pystr) :
  startswith hay needle = true ↔ ∃ after, hay = needle ++ after.
Proof.
  revert hay. induction needle as [|c needle IH]; intros hay; simpl.
  - split; [intros _; by exists hay | done].
  - destruct hay as [|d hay].
    + split; [done | intros [after Hafter]; discriminate].
    + rewrite andb_true_iff, bool_decide_eq_true, IH. split.
      * intros [-> [after ->]]. by exists after.
      * intros [after Hafter]. injection Hafter as -> ->. eauto.
Qed.

Lemma contains_spec (needle hay : pystr) :
  contains needle hay = true ↔ occurs_in needle hay.
Proof.
  unfold occurs_in. induction hay as [|d hay IH]; simpl.
  - rewrite orb_false_r, startswith_spec. split.
    + intros [after Hafter]. by exists [], after.
    + intros (before & after & Hhay).
      symmetry in Hhay. apply app_eq_nil in Hhay as [-> Hhay].
      apply app_eq_nil in Hhay as [-> ->]. by exists [].
  - rewrite orb_true_iff, startswith_spec, IH. split.
    + intros [[after Hafter] | (before & after & ->)].
      * by exists [], after.
      * by exists (d :: before), after.
    + intros ([|b before] & after & Hhay); simpl in Hhay.
      * left. by exists after.
      * right. injection Hhay as -> ->. by exists before, after.
Qed.

Lemma contains_false_spec (needle hay : pystr) :
  contains needle hay = false ↔ ¬ occurs_in needle hay.
Proof. rewrite <- contains_spec. by destruct (contains needle hay). Qed.

Lemma contains_char (ch : N) (s : pystr) :
  contains [ch] s = true ↔ ch ∈ s.
Proof.
  rewrite contains_spec. unfold occurs_in. split.
  - intros (before & after & ->). set_solver.
  - intros (before & after & ->)%list_elem_of_split. by exists before, after.
Qed.

Lemma any_spec {A} (p : A → bool) (xs : list A) :
  any p xs = true ↔ ∃ x, x ∈ xs ∧ p x = true.
Proof.
  unfold any. rewrite existsb_exists.
  split; intros (x & Hx & Hp); exists x; by rewrite ?list_elem_of_In in *.
Qed.

Lemma any_false_spec {A} (p : A → bool) (xs : list A) :
  any p xs = false ↔ ∀ x, x ∈ xs → p x = false.
Proof.
  rewrite <- not_true_iff_false, any_spec. split.
  - intros Hno x Hx. apply not_true_iff_false. naive_solver.
  - intros Hall (x & Hx & Hp). specialize (Hall x Hx). congruence.
Qed.

(** ** The platform detector *)

Section platform.
Context `{PyStr}.

Lemma lowered_snoc (headers : headers_t) (k v : pystr) :
  lowered (headers ++ [(k, v)]) = <[lower k := v]> (lowered headers).
Proof. unfold lowered. by rewrite foldl_snoc. Qed.

Lemma has_header_snoc (headers : headers_t) (k v name : pystr) :
  has_header (headers ++ [(k, v)]) name ↔
  lower k = name ∨ has_header headers name.
Proof.
  unfold has_header. split.
  - intros (k' & v' & [Hin | Hin%list_elem_of_singleton]%elem_of_app & Hk).
    + right. eauto.
    + left. congruence.
  - intros [Hk | (k' & v' & Hin & Hk)].
    + exists k, v. split; [|done]. apply elem_of_app. right. by left.
    + exists k', v'. split; [|done]. apply elem_of_app. by left.
Qed.

Lemma lowered_is_Some (headers : headers_t) (name : pystr) :
  is_Some (lowered headers !! name) ↔ has_header headers name.
Proof.
  induction headers as [|[k v] headers IH] using rev_ind.
  - unfold lowered, has_header; simpl. rewrite lookup_empty. split.
    + by intros [? ?].
    + intros (k & v & Hin & _). by apply elem_of_nil in Hin.
  - rewrite lowered_snoc, has_header_snoc, lookup_insert_is_Some, IH.
    destruct (decide (lower k = name)) as [Hk | Hk]; [by split; left |].
    split; intros [? | Hrest]; try done; right; [apply Hrest | done].
Qed.

Lemma lowered_None (headers : headers_t) (name : pystr) :
  lowered headers !! name = None ↔ ¬ has_header headers name.
Proof. by rewrite <- lowered_is_Some, eq_None_not_Some. Qed.

(** When a name is repeated, its last line decides. *)
Lemma lowered_last (before after : headers_t) (k v : pystr) :
  ¬ has_header after (lower k) →
  lowered (before ++ (k, v) :: after) !! lower k = Some v.
Proof.
  induction after as [|[k' v'] after IH] using rev_ind; intros Hno.
  - by rewrite lowered_snoc, lookup_insert_eq.
  - rewrite app_comm_cons, app_assoc, lowered_snoc.
    rewrite has_header_snoc in Hno.
    rewrite lookup_insert_ne by (intros Heq; apply Hno; by left).
    apply IH. intros Hhas. apply Hno. by right.
Qed.

Lemma lowered_last_header (headers : headers_t) (name v : pystr) :
  last_header headers name v → lowered headers !! name = Some v.
Proof.
  intros (before & k & after & -> & <- & Hafter). by apply lowered_last.
Qed.

Lemma detect_platform_hub (headers : headers_t) (v : pystr) :
  last_header headers (str "x-hub-signature") v →
  detect_platform headers =
    if contains (str "instagram") (lower v) then str "instagram"
    else str "facebook".
Proof.
  intros Hv%lowered_last_header. unfold detect_platform. simpl. by rewrite Hv.
Qed.

Lemma detect_platform_tiktok (headers : headers_t) :
  ¬ has_header headers (str "x-hub-signature") →
  has_header headers (str "tiktok-signature") →
  detect_platform headers = str "tiktok".
Proof.
  intros Hhub%lowered_None Htik%lowered_is_Some.
  unfold detect_platform. simpl. rewrite Hhub.
  by rewrite bool_decide_eq_true_2.
Qed.

Lemma detect_platform_x (headers : headers_t) :
  ¬ has_header headers (str "x-hub-signature") →
  ¬ has_header headers (str "tiktok-signature") →
  has_header headers (str "x-twitter-auth") →
  detect_platform headers = str "x".
Proof.
  intros Hhub%lowered_None Htik Hx%lowered_is_Some.
  unfold detect_platform. simpl. rewrite Hhub.
  rewrite bool_decide_eq_false_2 by (by rewrite lowered_is_Some).
  by rewrite bool_decide_eq_true_2.
Qed.

Lemma detect_platform_unknown (headers : headers_t) :
  ¬ has_header headers (str "x-hub-signature") →
  ¬ has_header headers (str "tiktok-signature") →
  ¬ has_header headers (str "x-twitter-auth") →
  detect_platform headers = str "unknown".
Proof.
  intros Hhub%lowered_None Htik Hx.
  unfold detect_platform. simpl. rewrite Hhub.
  by rewrite !bool_decide_eq_false_2 by (by rewrite lowered_is_Some).
Qed.

Lemma detect_platform_tag (headers : headers_t) :
  detect_platform headers ∈ platform_tags.
Proof.
  unfold detect_platform, platform_tags. simpl.
  repeat case_match; set_solver.
Qed.

End platform.

(** C4, amended.  [detect_platform] reads the header names in any case,
    tests them in a fixed order, and always answers one of the five tags:
    when there is a header [x-hub-signature], the value of its last line
    decides, "instagram" if it mentions "instagram" in any case and
    "facebook" if not; failing that header, [tiktok-signature] gives
    "tiktok"; failing both, [x-twitter-auth] gives "x"; and "unknown" is
    the default. *)
Theorem detect_platform_priority `{PyStr} (headers : headers_t) :
  detect_platform headers ∈ platform_tags ∧
  (∀ v, last_header headers (str "x-hub-signature") v →
        occurs_in (str "instagram") (lower v) →
        detect_platform headers = str "instagram") ∧
  (∀ v, last_header headers (str "x-hub-signature") v →
        ¬ occurs_in (str "instagram") (lower v) →
        detect_platform headers = str "facebook") ∧
  (¬ has_header headers (str "x-hub-signature") →
   has_header headers (str "tiktok-signature") →
   detect_platform headers = str "tiktok") ∧
  (¬ has_header headers (str "x-hub-signature") →
   ¬ has_header headers (str "tiktok-signature") →
   has_header headers (str "x-twitter-auth") →
   detect_platform headers = str "x") ∧
  (¬ has_header headers (str "x-hub-signature") →
   ¬ has_header headers (str "tiktok-signature") →
   ¬ has_header headers (str "x-twitter-auth") →
   detect_platform headers = str "unknown").
Proof.
  split; [apply detect_platform_tag |].
  split; [| split].
  - intros v Hv Hin%contains_spec. by rewrite (detect_platform_hub _ v), Hin.
  - intros v Hv Hin%contains_false_spec.
    by rewrite (detect_platform_hub _ v), Hin.
  - auto using detect_platform_tiktok, detect_platform_x,
      detect_platform_unknown.
Qed.

Lemma detect_platform_priority_witness :
  last_header hub_instagram (str "x-hub-signature") (str "sha1=Instagram") ∧
  occurs_in (str "instagram") (lower (str "sha1=Instagram")) ∧
  detect_platform hub_instagram = str "instagram".
Proof.
  assert (Hv : last_header hub_instagram (str "x-hub-signature")
                 (str "sha1=Instagram")).
  { exists [], (str "X-Hub-Signature"), [].
    split; [reflexivity |]. split; [reflexivity |].
    intros (k & v & Hin & _). by apply elem_of_nil in Hin. }
  assert (Hin : occurs_in (str "instagram") (lower (str "sha1=Instagram"))).
  { by exists (str "sha1="), []. }
  split; [done | split; [done |]].
  destruct (detect_platform_priority (H:=ascii_pystr) hub_instagram)
    as (_ & Hinsta & _).
  exact (Hinsta _ Hv Hin).
Defined.

(** C4 as stated fails: [hub_twice] has a line [x-hub-signature] whose
    value is "instagram", followed by a second line for the same header
    with another value, and the platform is "facebook". *)
Lemma detect_platform_first_line_lost :
  (str "x-hub-signature", str "instagram") ∈ hub_twice ∧
  lower (str "x-hub-signature") = str "x-hub-signature" ∧
  occurs_in (str "instagram") (lower (str "instagram")) ∧
  detect_platform hub_twice = str "facebook" ∧
  detect_platform hub_twice ≠ str "instagram".
Proof.
  split; [by left |]. split; [reflexivity |].
  split; [by exists [], [] |]. split; [reflexivity |]. discriminate.
Qed.

(** ** ASCII text under any instance of the string methods *)

Lemma ascii_lower_char_bound (c : N) : c < 128 → ascii_lower_char c < 128.
Proof.
  intros Hc. unfold ascii_lower_char.
  destruct (65 <=? c) eqn:Hlo; simpl; [|done].
  destruct (c <=? 90) eqn:Hhi; [|done].
  apply N.leb_le in Hhi. lia.
Qed.

Lemma is_ascii_lower (s : pystr) :
  is_ascii s = true → is_ascii (ascii_lower s) = true.
Proof.
  unfold is_ascii, ascii_lower. induction s as [|c s IH]; simpl; [done|].
  rewrite !andb_true_iff, !N.ltb_lt.
  intros [Hc Hs]. split; [by apply ascii_lower_char_bound | by apply IH].
Qed.

Section text_tests.
Context `{PyStr}.

Lemma needs_manual_reply_ascii (s : pystr) :
  is_ascii s = true →
  needs_manual_reply s = needs_manual_reply (H:=ascii_pystr) s.
Proof.
  intros Hs. unfold needs_manual_reply. by rewrite (lower_ascii s Hs).
Qed.

Lemma is_spam_ascii (s : pystr) :
  is_ascii s = true → is_spam s = is_spam (H:=ascii_pystr) s.
Proof.
  intros Hs. unfold is_spam.
  by rewrite (lower_ascii s Hs), (strip_ascii _ (is_ascii_lower s Hs)).
Qed.

(** ** The manual-reply heuristic *)

Lemma needs_manual_reply_iff (s : pystr) :
  s ≠ [] →
  needs_manual_reply s = true ↔
    (∃ w, w ∈ urgent_words ∧ occurs_in w (lower s)) ∨
    (40 < length (lower s))%nat ∨
    (∃ ch, ch ∈ emoji_chars ∧ ch ∈ s).
Proof.
  intros Hs. destruct s as [|c s]; [done|]. clear Hs.
  unfold needs_manual_reply.
  destruct (any _ urgent_words) eqn:Hurgent.
  { split; [intros _ | done]. left.
    apply any_spec in Hurgent as (w & Hw & Hin). exists w.
    by rewrite <- contains_spec. }
  case_bool_decide as Hlen.
  { split; [intros _ | done]. by right; left. }
  destruct (any _ emoji_chars) eqn:Hemoji.
  { split; [intros _ | done]. right; right.
    apply any_spec in Hemoji as (ch & Hch & Hin). exists ch.
    split; [done | by apply contains_char]. }
  split; [done |].
  intros [(w & Hw & Hin) | [? | (ch & Hch & Hin)]]; [| done |].
  - apply contains_spec in Hin.
    rewrite any_false_spec in Hurgent. by rewrite (Hurgent w Hw) in Hin.
  - apply contains_char in Hin.
    rewrite any_false_spec in Hemoji. by rewrite (Hemoji ch Hch) in Hin.
Qed.

Lemma needs_manual_reply_long (s : pystr) :
  (40 < length s)%nat → needs_manual_reply s = true.
Proof.
  intros Hlen. apply needs_manual_reply_iff.
  - intros ->. simpl in Hlen. lia.
  - right; left. pose proof (lower_length s). lia.
Qed.

(** What the heuristic computes: false on the empty text; on any other
    text, true exactly when one of the nine urgency substrings occurs in
    the lowered text, or the lowered text is longer than 40 characters, or
    the text holds one of the six code points the loop over the emoji
    literal runs through (four faces, the heart U+2764, and the variation
    selector U+FE0F that follows the heart).  Lowering never shortens a
    text, so every text longer than 40 characters gives true. *)
Theorem needs_manual_reply_spec (s : pystr) :
  needs_manual_reply [] = false ∧
  length urgent_words = 9%nat ∧
  emoji_chars = five_emoji ++ [0xFE0F] ∧
  (s ≠ [] →
   needs_manual_reply s = true ↔
     (∃ w, w ∈ urgent_words ∧ occurs_in w (lower s)) ∨
     (40 < length (lower s))%nat ∨
     (∃ ch, ch ∈ emoji_chars ∧ ch ∈ s)) ∧
  ((40 < length s)%nat → needs_manual_reply s = true).
Proof.
  split; [done |]. split; [done |]. split; [done |].
  split; [apply needs_manual_reply_iff | apply needs_manual_reply_long].
Qed.

(** ** The spam filter *)

Lemma is_spam_iff (s : pystr) :
  is_spam s = true ↔ ∃ x, x ∈ bad ∧ occurs_in x (strip (lower s)).
Proof.
  unfold is_spam. rewrite any_spec.
  by setoid_rewrite contains_spec.
Qed.

End text_tests.

Lemma needs_manual_reply_spec_witness :
  (40 < length long_text)%nat ∧ needs_manual_reply long_text = true.
Proof.
  assert (Hlen : (40 < length long_text)%nat) by (vm_compute; lia).
  split; [done |].
  exact (proj2 (proj2 (proj2 (proj2
    (needs_manual_reply_spec (H:=ascii_pystr) long_text)))) Hlen).
Defined.

(** C3, at the input where the code departs from it.  The sun emoji
    U+2600 U+FE0F is a text of two characters with no urgency substring
    and none of the five emoji of the literal, so the manual-reply flag
    should be false; [needs_manual_reply] answers true on it, because the
    loop over the literal goes code point by code point and so tests the
    variation selector of the heart on its own. *)
Lemma needs_manual_reply_variation_selector :
  sun_emoji ≠ [] ∧
  needs_manual_reply sun_emoji = true ∧
  ¬ ((∃ w, w ∈ urgent_words ∧ occurs_in w (lower sun_emoji)) ∨
     (40 < length sun_emoji)%nat ∨
     (∃ ch, ch ∈ five_emoji ∧ ch ∈ sun_emoji)).
Proof.
  set (s := sun_emoji). split; [done |]. split; [by vm_compute |].
  intros [(w & Hw & Hin) | [Hlen | (ch & Hch & Hin)]].
  - apply contains_spec in Hin.
    assert (Hnone : any (λ w, contains w (lower s)) urgent_words = false)
      by (by vm_compute).
    rewrite any_false_spec in Hnone. by rewrite (Hnone w Hw) in Hin.
  - vm_compute in Hlen. lia.
  - apply contains_char in Hin.
    assert (Hnone : any (λ ch, contains [ch] s) five_emoji = false)
      by (by vm_compute).
    rewrite any_false_spec in Hnone. by rewrite (Hnone ch Hch) in Hin.
Qed.

(** ** The reply renderer *)

Lemma list_pair_ind {A} (P : list A → Prop) :
  P [] →
  (∀ x, P [x]) →
  (∀ x y l, P l → P (y :: l) → P (x :: y :: l)) →
  ∀ l, P l.
Proof.
  intros Hnil Hone Hstep l.
  enough (P l ∧ ∀ x, P (x :: l)) by tauto.
  induction l as [|y l [IHl IHyl]]; [by split |].
  split; [apply IHyl |]. intros x. by apply Hstep.
Qed.

Lemma bind_Ok {A B} (a : A) (k : A → outcome B) : Ok a ≫= k = k a.
Proof. done. Qed.

(** One step of the two automata, the recursive calls kept folded. *)
Lemma format_from_text (kw : gmap pystr pystr) (c d : N) (s : pystr) :
  format_from kw None (c :: d :: s) =
    if c =? 123 then
      if d =? 123 then rest ← format_from kw None s; Ok (123 :: rest)
      else format_from kw (Some []) (d :: s)
    else if c =? 125 then
      if d =? 125 then rest ← format_from kw None s; Ok (125 :: rest)
      else Raise ValueError
    else rest ← format_from kw None (d :: s); Ok (c :: rest).
Proof. done. Qed.

Lemma format_from_field (kw : gmap pystr pystr) (f : pystr) (c : N) (s : pystr) :
  format_from kw (Some f) (c :: s) =
    if c =? 125 then
      v ← get_field kw f; rest ← format_from kw None s; Ok (v ++ rest)
    else if c =? 123 then Raise ValueError
    else if field_special c then Beyond
    else format_from kw (Some (f ++ [c])) s.
Proof. done. Qed.

Lemma scan_from_text (c d : N) (s : pystr) :
  scan_from None (c :: d :: s) =
    if c =? 123 then
      if d =? 123 then prod_map (cons (Lit 123)) id (scan_from None s)
      else scan_from (Some []) (d :: s)
    else if c =? 125 then
      if d =? 125 then prod_map (cons (Lit 125)) id (scan_from None s)
      else ([], Malformed)
    else prod_map (cons (Lit c)) id (scan_from None (d :: s)).
Proof. done. Qed.

Lemma scan_from_field (f : pystr) (c : N) (s : pystr) :
  scan_from (Some f) (c :: s) =
    if c =? 125 then prod_map (cons (Field f)) id (scan_from None s)
    else if c =? 123 then ([], Malformed)
    else if field_special c then ([], Unmodelled)
    else scan_from (Some (f ++ [c])) s.
Proof. done. Qed.

Lemma fill_Lit (kw : gmap pystr pystr) (c : N) (sc : list piece * scan_end) :
  fill kw (prod_map (cons (Lit c)) id sc).1 (prod_map (cons (Lit c)) id sc).2 =
    rest ← fill kw sc.1 sc.2; Ok (c :: rest).
Proof. done. Qed.

Lemma fill_Field (kw : gmap pystr pystr) (f : pystr) (sc : list piece * scan_end) :
  fill kw (prod_map (cons (Field f)) id sc).1
          (prod_map (cons (Field f)) id sc).2 =
    v ← get_field kw f; rest ← fill kw sc.1 sc.2; Ok (v ++ rest).
Proof. done. Qed.

(** Formatting is reading the template and then filling it in. *)
Lemma format_scan (kw : gmap pystr pystr) (s : pystr) :
  ∀ field,
    format_from kw field s =
    fill kw (scan_from field s).1 (scan_from field s).2.
Proof.
  induction s as [|x|x y s IHs IHys] using list_pair_ind; intros [f|].
  - done.
  - done.
  - simpl. repeat case_match; done.
  - simpl. repeat case_match; done.
  - rewrite format_from_field, scan_from_field.
    destruct (x =? 125); [by rewrite fill_Field, <- IHys |].
    destruct (x =? 123); [done |].
    destruct (field_special x); [done |]. apply IHys.
  - rewrite format_from_text, scan_from_text.
    destruct (x =? 123).
    { destruct (y =? 123); [by rewrite fill_Lit, <- IHs | apply IHys]. }
    destruct (x =? 125).
    { destruct (y =? 125); [by rewrite fill_Lit, <- IHs | done]. }
    by rewrite fill_Lit, <- IHys.
Qed.

Lemma render_template_scan (t : pystr) (kw : gmap pystr pystr) :
  render_template t kw = fill kw (scan t).1 (scan t).2.
Proof. apply format_scan. Qed.


Lemma get_field_keyword (kw : gmap pystr pystr) (f : pystr) :
  f ≠ [] → is_index f = false → get_field kw f = getitem kw f.
Proof.
  intros Hf Hidx. unfold get_field. destruct f; [done |]. by rewrite Hidx.
Qed.






Lemma get_field_supplied (kw : gmap pystr pystr) (f v : pystr) :
  f ≠ [] → is_index f = false → kw !! f = Some v → get_field kw f = Ok v.
Proof.
  intros Hf Hidx Hv. rewrite get_field_keyword by done.
  unfold getitem. by rewrite Hv.
Qed.

(** *** The three templates of the table *)

Ltac fill_template t :=
  rewrite render_template_scan;
  let sc := eval vm_compute in (scan t) in
  change (scan t) with sc; cbn [fst snd fill].

Ltac supply kw f v Hf :=
  let k := eval vm_compute in f in
  rewrite (get_field_supplied kw k v) by (done || exact Hf).

Lemma render_boundary (kw : gmap pystr pystr) (who : pystr) :
  kw !! str "NAME" = Some who →
  render_template boundary_template kw = Ok (boundary_text who).
Proof.
  intros Hname. fill_template boundary_template.
  by supply kw (str "NAME") who Hname.
Qed.

Lemma render_probe (kw : gmap pystr pystr) (who : pystr) :
  kw !! str "NAME" = Some who →
  render_template probe_template kw = Ok (probe_text who).
Proof.
  intros Hname. fill_template probe_template.
  by supply kw (str "NAME") who Hname.
Qed.

Lemma render_welcome (kw : gmap pystr pystr) (who brand : pystr) :
  kw !! str "NAME" = Some who →
  kw !! str "BRAND_NAME" = Some brand →
  render_template welcome_template kw = Ok (welcome_text who brand).
Proof.
  intros Hname Hbrand. fill_template welcome_template.
  supply kw (str "NAME") who Hname.
  by supply kw (str "BRAND_NAME") brand Hbrand.
Qed.





(** The table has an entry for every category and style the handler asks
    for, and each entry is a list of one template. *)
Lemma templates_boundary :
  (getitem DEFAULT_TEMPLATES (str "boundary") ≫= λ by_style,
     getitem by_style (str "pro")) = Ok [boundary_template].
Proof. by vm_compute. Qed.

Lemma templates_welcome :
  (getitem DEFAULT_TEMPLATES (str "welcome") ≫= λ by_style,
     getitem by_style (str "warm")) = Ok [welcome_template].
Proof. by vm_compute. Qed.

Lemma templates_probe :
  (getitem DEFAULT_TEMPLATES (str "probe") ≫= λ by_style,
     getitem by_style (str "pro")) = Ok [probe_template].
Proof. by vm_compute. Qed.

(** *** The keyword arguments of the call sites *)

Lemma template_kw_NAME (environ : gmap pystr pystr) (msg : Message) :
  template_kw environ msg !! str "NAME" = Some (name msg).
Proof. apply lookup_insert_eq. Qed.

Lemma template_kw_BRAND_NAME (environ : gmap pystr pystr) (msg : Message) :
  template_kw environ msg !! str "BRAND_NAME" = Some (BRAND_NAME environ).
Proof.
  unfold template_kw. rewrite lookup_insert_ne; [apply lookup_singleton_eq |].
  intros Heq. vm_compute in Heq. discriminate.
Qed.

(** ** The request handler *)

Section handler.
Context `{PyStr}.
Variable environ : gmap pystr pystr.

(** The handler as a decision list: the response of each branch. *)
Lemma reply_eq (msg : Message) (headers : headers_t) :
  reply environ msg headers =
  Ok (let platform := detect_platform headers in
      let manual_required := needs_manual_reply (text msg) in
      if is_spam (text msg) then
        plain_payload (boundary_text (name msg)) platform manual_required
      else if contains (str "nurse") (lower (text msg)) then
        nurse_payload environ (nurse_greeting (name msg)) platform manual_required
      else if any (λ word, contains word (lower (text msg))) greeting_words then
        plain_payload (welcome_text (name msg) (BRAND_NAME environ))
          platform manual_required
      else
        plain_payload (probe_text (name msg)) platform manual_required).
Proof.
  unfold reply.
  generalize (detect_platform headers) (needs_manual_reply (text msg)).
  intros platform manual_required.
  destruct (is_spam _).
  { reflexivity. }
  destruct (contains _ _); [done |].
  destruct (any _ _); reflexivity.
Qed.

(** The fields of the two shapes of response. *)
Lemma plain_payload_fields (reply_text platform : pystr) (manual_required : bool) :
  let p := plain_payload reply_text platform manual_required in
  p !! str "reply" = Some (VStr reply_text) ∧
  p !! str "platform" = Some (VStr platform) ∧
  p !! str "manual_required" = Some (VBool manual_required) ∧
  p !! str "nurse_images" = None.
Proof. by vm_compute. Qed.

Lemma nurse_payload_fields (reply_text platform : pystr) (manual_required : bool) :
  let p := nurse_payload environ reply_text platform manual_required in
  p !! str "reply" = Some (VStr reply_text) ∧
  p !! str "platform" = Some (VStr platform) ∧
  p !! str "manual_required" = Some (VBool manual_required) ∧
  p !! str "nurse_images" = Some (VDict (nurse_images environ)).
Proof.
  unfold nurse_payload. generalize (nurse_images environ). intros d.
  by vm_compute.
Qed.

Lemma plain_payload_no_images (reply_text platform : pystr) (manual_required : bool) :
  plain_payload reply_text platform manual_required !! str "nurse_images" = None.
Proof. apply plain_payload_fields. Qed.

Lemma nurse_payload_images (reply_text platform : pystr) (manual_required : bool) :
  nurse_payload environ reply_text platform manual_required
    !! str "nurse_images" = Some (VDict (nurse_images environ)).
Proof. apply nurse_payload_fields. Qed.

Lemma nurse_images_keys :
  dom (nurse_images environ) = nurse_image_keys ∧
  size (nurse_images environ) = 4%nat.
Proof.
  unfold nurse_images.
  generalize (NURSE_MEDIA_URL environ) (NURSE_CURTAIN_URL environ)
    (NURSE_BED_URL environ) (NURSE_NIL_URL environ).
  intros a b c d. split; [| vm_compute; reflexivity].
  rewrite !dom_insert_L, dom_singleton_L. unfold nurse_image_keys.
  set_solver.
Qed.

Lemma reply_spam (msg : Message) (headers : headers_t) :
  is_spam (text msg) = true →
  reply environ msg headers =
  Ok (plain_payload (boundary_text (name msg)) (detect_platform headers)
        (needs_manual_reply (text msg))).
Proof. intros Hspam. rewrite reply_eq. cbv zeta. by rewrite Hspam. Qed.

Lemma reply_nurse_branch (msg : Message) (headers : headers_t) :
  is_spam (text msg) = false →
  contains (str "nurse") (lower (text msg)) = true →
  reply environ msg headers =
  Ok (nurse_payload environ (nurse_greeting (name msg))
        (detect_platform headers) (needs_manual_reply (text msg))).
Proof.
  intros Hspam Hnurse. rewrite reply_eq. cbv zeta. by rewrite Hspam, Hnurse.
Qed.

Lemma reply_greeting (msg : Message) (headers : headers_t) :
  is_spam (text msg) = false →
  contains (str "nurse") (lower (text msg)) = false →
  any (λ word, contains word (lower (text msg))) greeting_words = true →
  reply environ msg headers =
  Ok (plain_payload (welcome_text (name msg) (BRAND_NAME environ))
        (detect_platform headers) (needs_manual_reply (text msg))).
Proof.
  intros Hspam Hnurse Hgreet. rewrite reply_eq. cbv zeta.
  by rewrite Hspam, Hnurse, Hgreet.
Qed.

Lemma reply_default (msg : Message) (headers : headers_t) :
  is_spam (text msg) = false →
  contains (str "nurse") (lower (text msg)) = false →
  any (λ word, contains word (lower (text msg))) greeting_words = false →
  reply environ msg headers =
  Ok (plain_payload (probe_text (name msg))
        (detect_platform headers) (needs_manual_reply (text msg))).
Proof.
  intros Hspam Hnurse Hgreet. rewrite reply_eq. cbv zeta.
  by rewrite Hspam, Hnurse, Hgreet.
Qed.

Lemma greets_spec (t : pystr) :
  any (λ word, contains word t) greeting_words = true ↔
  ∃ word, word ∈ greeting_words ∧ occurs_in word t.
Proof. rewrite any_spec. by setoid_rewrite contains_spec. Qed.

(** C1, amended.  For every message whose text is not spam and contains
    "nurse" in any case, the handler answers the nurse greeting with the
    name of the message in it, and the response has an images block of
    exactly four keys: main, curtain, bed, nil_by_mouth. *)
Theorem reply_nurse (msg : Message) (headers : headers_t) :
  is_spam (text msg) = false →
  occurs_in (str "nurse") (lower (text msg)) →
  ∃ p d,
    reply environ msg headers = Ok p ∧
    p !! str "reply" =
      Some (VStr (str "Hello " ++ name msg ++
                  str ". How are you today? Is there anything you need?")) ∧
    p !! str "nurse_images" = Some (VDict d) ∧
    dom d = nurse_image_keys ∧
    size d = 4%nat.
Proof.
  intros Hspam Hnurse%contains_spec.
  eexists _, (nurse_images environ).
  split; [by apply reply_nurse_branch |].
  pose proof (nurse_payload_fields (nurse_greeting (name msg))
    (detect_platform headers) (needs_manual_reply (text msg)))
    as (Hreply & _ & _ & Himages).
  pose proof nurse_images_keys as [Hdom Hsize].
  split; [exact Hreply |]. split; [exact Himages |]. by split.
Qed.

(** C2.  The branches of the handler are tried in order and the first
    that matches answers: spam gives the boundary template and no images
    block; otherwise "nurse" in the lowered text gives the nurse greeting
    and the images block; otherwise one of "hi", "hello", "hey", "yo" in
    the lowered text gives the welcome template; otherwise the probe
    template is the answer. *)
Theorem reply_priority (msg : Message) (headers : headers_t) :
  let t := lower (text msg) in
  let platform := detect_platform headers in
  let manual_required := needs_manual_reply (text msg) in
  (is_spam (text msg) = true →
   reply environ msg headers =
     Ok (plain_payload (boundary_text (name msg)) platform manual_required) ∧
   plain_payload (boundary_text (name msg)) platform manual_required
     !! str "nurse_images" = None) ∧
  (is_spam (text msg) = false →
   occurs_in (str "nurse") t →
   reply environ msg headers =
     Ok (nurse_payload environ (nurse_greeting (name msg))
           platform manual_required) ∧
   nurse_payload environ (nurse_greeting (name msg)) platform manual_required
     !! str "nurse_images" = Some (VDict (nurse_images environ))) ∧
  (is_spam (text msg) = false →
   ¬ occurs_in (str "nurse") t →
   (∃ word, word ∈ greeting_words ∧ occurs_in word t) →
   reply environ msg headers =
     Ok (plain_payload (welcome_text (name msg) (BRAND_NAME environ))
           platform manual_required)) ∧
  (is_spam (text msg) = false →
   ¬ occurs_in (str "nurse") t →
   ¬ (∃ word, word ∈ greeting_words ∧ occurs_in word t) →
   reply environ msg headers =
     Ok (plain_payload (probe_text (name msg)) platform manual_required)).
Proof.
  intros t platform manual_required.
  split; [| split; [| split]].
  - intros Hspam.
    split; [by apply reply_spam | apply plain_payload_no_images].
  - intros Hspam Hnurse%contains_spec.
    split; [by apply reply_nurse_branch | apply nurse_payload_images].
  - intros Hspam Hnurse%contains_false_spec Hgreet%greets_spec.
    by apply reply_greeting.
  - intros Hspam Hnurse%contains_false_spec Hgreet.
    apply reply_default; [exact Hspam | exact Hnurse |].
    apply not_true_iff_false. by rewrite greets_spec.
Qed.

(** C5.  Whatever the branch, the response holds the platform computed
    from the request headers and the manual-reply flag computed from the
    text of the message. *)
Theorem reply_flags (msg : Message) (headers : headers_t) :
  ∃ p,
    reply environ msg headers = Ok p ∧
    p !! str "platform" = Some (VStr (detect_platform headers)) ∧
    p !! str "manual_required" =
      Some (VBool (needs_manual_reply (text msg))).
Proof.
  rewrite reply_eq. eexists. split; [reflexivity |]. cbv zeta.
  repeat case_match;
    match goal with
    | |- context [plain_payload ?r ?p ?m] =>
        destruct (plain_payload_fields r p m) as (_ & ? & ? & _)
    | |- context [nurse_payload _ ?r ?p ?m] =>
        destruct (nurse_payload_fields r p m) as (_ & ? & ? & _)
    end; split; assumption.
Qed.



(** C7.  [is_spam] lowers and trims the text and answers true exactly when
    one of the five bad substrings occurs in the result; the text
    "please help??? crypto" is spam, so the handler answers the boundary
    template for it, the urgency words in the text notwithstanding (they
    only set the manual-reply flag). *)
Theorem is_spam_crypto :
  length bad = 5%nat ∧
  (∀ t, is_spam t = true ↔ ∃ x, x ∈ bad ∧ occurs_in x (strip (lower t))) ∧
  is_spam (str "please help??? crypto") = true ∧
  needs_manual_reply (str "please help??? crypto") = true ∧
  (∀ who headers,
     reply environ {| name := who; text := str "please help??? crypto" |} headers =
     Ok (plain_payload (boundary_text who) (detect_platform headers) true)).
Proof.
  assert (Hspam : is_spam (str "please help??? crypto") = true).
  { rewrite is_spam_ascii by reflexivity. by vm_compute. }
  assert (Hmanual : needs_manual_reply (str "please help??? crypto") = true).
  { rewrite needs_manual_reply_ascii by reflexivity. by vm_compute. }
  split; [reflexivity |]. split; [apply is_spam_iff |].
  split; [exact Hspam |]. split; [exact Hmanual |].
  intros who headers. rewrite reply_spam by exact Hspam.
  cbn [name text]. by rewrite Hmanual.
Qed.

(** C8.  Whatever the headers, [/test-nurse] answers the nurse response for
    the message of Keith saying "nurse": the greeting with "Keith" in it
    and the images block of four keys; the platform is the one detected
    from the headers of the request. *)
Theorem test_nurse_payload (headers : headers_t) :
  test_nurse environ headers =
    nurse_payload environ
      (str "Hello Keith. How are you today? Is there anything you need?")
      (detect_platform headers) false ∧
  reply environ {| name := str "Keith"; text := str "nurse" |} headers =
    Ok (test_nurse environ headers) ∧
  test_nurse environ headers !! str "nurse_images" =
    Some (VDict (nurse_images environ)) ∧
  dom (nurse_images environ) = nurse_image_keys ∧
  size (nurse_images environ) = 4%nat.
Proof.
  assert (Hmanual : needs_manual_reply (str "nurse") = false).
  { rewrite needs_manual_reply_ascii by reflexivity. by vm_compute. }
  assert (Hspam : is_spam (str "nurse") = false).
  { rewrite is_spam_ascii by reflexivity. by vm_compute. }
  assert (Hnurse : contains (str "nurse") (lower (str "nurse")) = true).
  { rewrite lower_ascii by reflexivity. by vm_compute. }
  assert (Heq : test_nurse environ headers =
    nurse_payload environ
      (str "Hello Keith. How are you today? Is there anything you need?")
      (detect_platform headers) false).
  { unfold test_nurse. cbn [name text]. by rewrite Hmanual. }
  split; [exact Heq |].
  split.
  { rewrite reply_nurse_branch by assumption.
    cbn [name text]. by rewrite Hmanual, Heq. }
  split; [rewrite Heq; apply nurse_payload_images |].
  apply nurse_images_keys.
Qed.

(** C9.  [pick] answers the head of a list, and the empty string on the
    empty list, so a rendered reply depends on the first template of the
    chosen list only; with the table as it is, the boundary, welcome and
    probe replies are each the rendering of one fixed template. *)
Theorem reply_first_template :
  pick [] = [] ∧
  (∀ x lst, pick (x :: lst) = x) ∧
  (∀ x lst kw, render_template (pick (x :: lst)) kw = render_template x kw) ∧
  (∃ lst, (getitem DEFAULT_TEMPLATES (str "boundary") ≫= λ by_style,
             getitem by_style (str "pro")) = Ok lst ∧
          pick lst = boundary_template) ∧
  (∃ lst, (getitem DEFAULT_TEMPLATES (str "welcome") ≫= λ by_style,
             getitem by_style (str "warm")) = Ok lst ∧
          pick lst = welcome_template) ∧
  (∃ lst, (getitem DEFAULT_TEMPLATES (str "probe") ≫= λ by_style,
             getitem by_style (str "pro")) = Ok lst ∧
          pick lst = probe_template) ∧
  (∀ msg headers,
     let t := lower (text msg) in
     let respond (template : pystr) :=
       reply_text ← render_template template (template_kw environ msg);
       Ok (plain_payload reply_text (detect_platform headers)
             (needs_manual_reply (text msg))) in
     (is_spam (text msg) = true →
      reply environ msg headers = respond boundary_template) ∧
     (is_spam (text msg) = false →
      contains (str "nurse") t = false →
      any (λ word, contains word t) greeting_words = true →
      reply environ msg headers = respond welcome_template) ∧
     (is_spam (text msg) = false →
      contains (str "nurse") t = false →
      any (λ word, contains word t) greeting_words = false →
      reply environ msg headers = respond probe_template)).
Proof.
  split; [reflexivity |]. split; [reflexivity |]. split; [reflexivity |].
  split; [exists [boundary_template]; split;
            [apply templates_boundary | reflexivity] |].
  split; [exists [welcome_template]; split;
            [apply templates_welcome | reflexivity] |].
  split; [exists [probe_template]; split;
            [apply templates_probe | reflexivity] |].
  intros msg headers t respond. subst respond. cbv beta.
  pose proof (template_kw_NAME environ msg) as Hname.
  pose proof (template_kw_BRAND_NAME environ msg) as Hbrand.
  rewrite (render_boundary _ _ Hname), (render_welcome _ _ _ Hname Hbrand),
    (render_probe _ _ Hname), !bind_Ok.
  split; [apply reply_spam |]. split; [apply reply_greeting | apply reply_default].
Qed.

(** C10.  The greeting branch is a plain substring test on the lowered
    text: for a message that is not spam and does not mention "nurse", one
    of "hi", "hello", "hey", "yo" anywhere in the lowered text, inside a
    longer word too, gives the welcome template and not the probe one. *)
Theorem reply_greeting_substring (msg : Message) (headers : headers_t)
    (word : pystr) :
  is_spam (text msg) = false →
  ¬ occurs_in (str "nurse") (lower (text msg)) →
  word ∈ greeting_words →
  occurs_in word (lower (text msg)) →
  reply environ msg headers =
    Ok (plain_payload (welcome_text (name msg) (BRAND_NAME environ))
          (detect_platform headers) (needs_manual_reply (text msg))) ∧
  welcome_text (name msg) (BRAND_NAME environ) ≠ probe_text (name msg).
Proof.
  intros Hspam Hnurse%contains_false_spec Hword Hin.
  split; [| intros Heq; vm_compute in Heq; discriminate].
  apply reply_greeting; [exact Hspam | exact Hnurse |].
  apply greets_spec. by exists word.
Qed.

End handler.

(** ** The statements at concrete requests

    The string methods are the ASCII ones, the environment is empty, and
    the request carries no header. *)

(** "hey" from Ana, no header: the welcome template, platform unknown, no
    manual reply. *)
Example reply_ana_hey :
  reply ∅ ana_hey [] =
    Ok (plain_payload
          (str "Hey Ana! I" ++ [0x2019] ++
           str "m Captain Lethargy. What are you into " ++ [0x2014] ++
           str " guitars, lyrics, or good vibes?")
          (str "unknown") false).
Proof. vm_compute. reflexivity. Qed.

(** A repeated signature header: the second line decides. *)
Example detect_platform_hub_twice : detect_platform hub_twice = str "facebook".
Proof. vm_compute. reflexivity. Qed.

(** C1 as stated fails: "nurse crypto" contains "nurse", and the handler
    answers the boundary template without an images block, the spam guard
    coming first. *)
Lemma reply_nurse_crypto :
  occurs_in (str "nurse") (lower (text ana_nurse_crypto)) ∧
  reply ∅ ana_nurse_crypto [] =
    Ok (plain_payload (boundary_text (str "Ana")) (str "unknown") false) ∧
  plain_payload (boundary_text (str "Ana")) (str "unknown") false
    !! str "nurse_images" = None ∧
  plain_payload (boundary_text (str "Ana")) (str "unknown") false
    !! str "reply" ≠ Some (VStr (nurse_greeting (str "Ana"))).
Proof.
  split; [by exists [], (str " crypto") |].
  split; [vm_compute; reflexivity |].
  split; [vm_compute; reflexivity |].
  intros Heq. vm_compute in Heq. discriminate.
Qed.

Lemma reply_nurse_witness :
  is_spam (text ana_nurse) = false ∧
  occurs_in (str "nurse") (lower (text ana_nurse)) ∧
  ∃ p d,
    reply ∅ ana_nurse [] = Ok p ∧
    p !! str "reply" =
      Some (VStr (str "Hello " ++ name ana_nurse ++
                  str ". How are you today? Is there anything you need?")) ∧
    p !! str "nurse_images" = Some (VDict d) ∧
    dom d = nurse_image_keys ∧
    size d = 4%nat.
Proof.
  assert (Hspam : is_spam (text ana_nurse) = false) by reflexivity.
  assert (Hnurse : occurs_in (str "nurse") (lower (text ana_nurse))).
  { by exists (str "is the "), (str " in?"). }
  split; [exact Hspam |]. split; [exact Hnurse |].
  exact (reply_nurse (H:=ascii_pystr) ∅ ana_nurse [] Hspam Hnurse).
Defined.

Lemma reply_priority_witness :
  is_spam (text ana_casino) = true ∧
  reply ∅ ana_casino [] =
    Ok (plain_payload (boundary_text (name ana_casino))
          (detect_platform []) (needs_manual_reply (text ana_casino))).
Proof.
  assert (Hspam : is_spam (text ana_casino) = true) by reflexivity.
  split; [exact Hspam |].
  destruct (reply_priority (H:=ascii_pystr) ∅ ana_casino []) as (Hfirst & _).
  exact (proj1 (Hfirst Hspam)).
Defined.



Lemma reply_first_template_witness :
  is_spam (text ana_casino) = true ∧
  reply ∅ ana_casino [] =
    (reply_text ← render_template boundary_template (template_kw ∅ ana_casino);
     Ok (plain_payload reply_text (detect_platform [])
           (needs_manual_reply (text ana_casino)))).
Proof.
  assert (Hspam : is_spam (text ana_casino) = true) by reflexivity.
  split; [exact Hspam |].
  destruct (reply_first_template (H:=ascii_pystr) ∅)
    as (_ & _ & _ & _ & _ & _ & Hreply).
  exact (proj1 (Hreply ana_casino []) Hspam).
Defined.

Lemma reply_greeting_substring_witness :
  (is_spam (text ana_this) = false ∧
   ¬ occurs_in (str "nurse") (lower (text ana_this)) ∧
   str "hi" ∈ greeting_words ∧
   occurs_in (str "hi") (lower (text ana_this)) ∧
   reply ∅ ana_this [] =
     Ok (plain_payload (welcome_text (str "Ana") (str "Captain Lethargy"))
           (str "unknown") false)) ∧
  (is_spam (text ana_your) = false ∧
   ¬ occurs_in (str "nurse") (lower (text ana_your)) ∧
   str "yo" ∈ greeting_words ∧
   occurs_in (str "yo") (lower (text ana_your)) ∧
   reply ∅ ana_your [] =
     Ok (plain_payload (welcome_text (str "Ana") (str "Captain Lethargy"))
           (str "unknown") false)).
Proof.
  assert (Hthis : ¬ occurs_in (str "nurse") (lower (text ana_this))).
  { by apply contains_false_spec. }
  assert (Hyour : ¬ occurs_in (str "nurse") (lower (text ana_your))).
  { by apply contains_false_spec. }
  assert (Hhi : str "hi" ∈ greeting_words) by (by left).
  assert (Hyo : str "yo" ∈ greeting_words) by (do 3 right; by left).
  assert (Hin_this : occurs_in (str "hi") (lower (text ana_this))).
  { by exists (str "t"), (str "s"). }
  assert (Hin_your : occurs_in (str "yo") (lower (text ana_your))).
  { by exists [], (str "ur"). }
  split.
  - split; [reflexivity |]. split; [exact Hthis |]. split; [exact Hhi |].
    split; [exact Hin_this |].
    exact (proj1 (reply_greeting_substring (H:=ascii_pystr) ∅ ana_this []
             (str "hi") eq_refl Hthis Hhi Hin_this)).
  - split; [reflexivity |]. split; [exact Hyour |]. split; [exact Hyo |].
    split; [exact Hin_your |].
    exact (proj1 (reply_greeting_substring (H:=ascii_pystr) ∅ ana_your []
             (str "yo") eq_refl Hyour Hyo Hin_your)).
Defined.

(** * Further properties *)

(** ** The platform detector and the header lines *)

Lemma ascii_lower_char_idemp (c : N) :
  ascii_lower_char (ascii_lower_char c) = ascii_lower_char c.
Proof.
  unfold ascii_lower_char.
  destruct ((65 <=? c) && (c <=? 90)) eqn:Hupper; [| by rewrite Hupper].
  apply andb_true_iff in Hupper as [Hlo%N.leb_le Hhi%N.leb_le].
  replace (c + 32 <=? 90) with false by (symmetry; apply N.leb_gt; lia).
  by rewrite andb_false_r.
Qed.

Lemma ascii_lower_idemp (s : pystr) : ascii_lower (ascii_lower s) = ascii_lower s.
Proof.
  unfold ascii_lower. rewrite <- list_fmap_compose.
  apply list_fmap_ext. intros i c _. apply ascii_lower_char_idemp.
Qed.

Section headers.
Context `{PyStr}.

Lemma lower_ascii_lower (s : pystr) :
  is_ascii s = true → lower (ascii_lower s) = lower s.
Proof.
  intros Hs. rewrite (lower_ascii _ (is_ascii_lower s Hs)), (lower_ascii s Hs).
  apply ascii_lower_idemp.
Qed.

(** A line for another name does not change what the dictionary holds for
    a name. *)
Lemma lowered_other_line (before after : headers_t) (k v name : pystr) :
  lower k ≠ name →
  lowered (before ++ (k, v) :: after) !! name = lowered (before ++ after) !! name.
Proof.
  intros Hk. induction after as [|[k' v'] after IH] using rev_ind.
  - by rewrite app_nil_r, lowered_snoc, lookup_insert_ne.
  - rewrite app_comm_cons, !app_assoc, !lowered_snoc.
    destruct (decide (lower k' = name)) as [-> | Hk'].
    + by rewrite !lookup_insert_eq.
    + by rewrite !lookup_insert_ne.
Qed.

Lemma lowered_lower_names (headers : headers_t) :
  ascii_names headers = true → lowered (lower_names headers) = lowered headers.
Proof.
  unfold ascii_names, lower_names.
  induction headers as [|[k v] headers IH] using rev_ind; [done |].
  rewrite forallb_app, andb_true_iff. simpl. rewrite andb_true_r.
  intros [Hrest Hk]. rewrite fmap_app. simpl.
  rewrite !lowered_snoc, IH by done. by rewrite lower_ascii_lower.
Qed.

(** X1.  When the signature header occurs more than once, in whatever
    case, its last line decides between "instagram" and "facebook". *)
Theorem detect_platform_last_line (before after : headers_t) (k v : pystr) :
  lower k = hub_name →
  ¬ has_header after hub_name →
  detect_platform (before ++ (k, v) :: after) =
    if contains (str "instagram") (lower v) then str "instagram"
    else str "facebook".
Proof.
  intros Hk Hafter. rewrite <- Hk in Hafter.
  pose proof (lowered_last before after k v Hafter) as Hlast.
  rewrite Hk in Hlast. unfold hub_name in Hlast.
  unfold detect_platform. cbv zeta. by rewrite Hlast.
Qed.

(** X2.  A header line whose name is none of the three the detector looks
    at can be added anywhere without changing the platform. *)
Theorem detect_platform_other_line (before after : headers_t) (k v : pystr) :
  lower k ≠ hub_name →
  lower k ≠ tiktok_name →
  lower k ≠ twitter_name →
  detect_platform (before ++ (k, v) :: after) = detect_platform (before ++ after).
Proof.
  intros Hhub Htiktok Htwitter. unfold detect_platform. cbv zeta.
  unfold hub_name, tiktok_name, twitter_name in *.
  rewrite (lowered_other_line _ _ _ _ _ Hhub).
  rewrite (lowered_other_line _ _ _ _ _ Htiktok).
  by rewrite (lowered_other_line _ _ _ _ _ Htwitter).
Qed.

(** X3.  A signature header anywhere among the lines settles the platform
    as "instagram" or "facebook", whatever the other lines are: the TikTok
    and X headers are not looked at. *)
Theorem detect_platform_hub_wins (headers : headers_t) :
  has_header headers hub_name →
  detect_platform headers ∈ [str "instagram"; str "facebook"].
Proof.
  intros [v Hv]%lowered_is_Some. unfold detect_platform. cbv zeta.
  unfold hub_name in Hv. rewrite Hv.
  destruct (contains _ _); [by left | right; by left].
Qed.

(** X4.  Header names are compared without regard to case: two lists of
    lines with ASCII names that agree once the names are lowered give the
    same platform. *)
Theorem detect_platform_names_case (headers headers' : headers_t) :
  ascii_names headers = true →
  ascii_names headers' = true →
  lower_names headers = lower_names headers' →
  detect_platform headers = detect_platform headers'.
Proof.
  intros Hascii Hascii' Heq. unfold detect_platform.
  by rewrite <- (lowered_lower_names headers), <- (lowered_lower_names headers'),
    Heq.
Qed.

End headers.

(** ** Substrings and trimming *)

Lemma occurs_in_app (x s before after : pystr) :
  occurs_in x s → occurs_in x (before ++ s ++ after).
Proof.
  intros (b & a & ->). exists (before ++ b), (a ++ after).
  by rewrite <- !app_assoc.
Qed.

Lemma occurs_in_reverse (x t : pystr) :
  occurs_in x t ↔ occurs_in (reverse x) (reverse t).
Proof.
  assert (Hone : ∀ y u, occurs_in y u → occurs_in (reverse y) (reverse u)).
  { intros y u (b & a & ->). exists (reverse a), (reverse b).
    by rewrite !reverse_app, <- app_assoc. }
  split; [apply Hone |]. intros Hrev%Hone.
  by rewrite !reverse_involutive in Hrev.
Qed.

Lemma contains_reverse (x t : pystr) :
  contains (reverse x) (reverse t) = contains x t.
Proof.
  apply eq_true_iff_eq. by rewrite !contains_spec, <- occurs_in_reverse.
Qed.

(** Leading white space cannot hold the start of a string that does not
    start with white space. *)
Lemma contains_lstrip (c : N) (x t : pystr) :
  ascii_isspace c = false →
  contains (c :: x) (lstrip t) = contains (c :: x) t.
Proof.
  intros Hc. induction t as [|d t IH]; [done |].
  cbn [lstrip]. destruct (ascii_isspace d) eqn:Hd; [| done].
  rewrite IH. cbn [contains startswith].
  rewrite bool_decide_eq_false_2; [done |]. intros ->. congruence.
Qed.

Lemma contains_ascii_strip (x t : pystr) :
  trimmed x = true → contains x (ascii_strip t) = contains x t.
Proof.
  unfold trimmed, ascii_strip.
  destruct x as [|c x']; [done |].
  destruct (reverse (c :: x')) as [|d r] eqn:Hrev; [done |].
  rewrite andb_true_iff, !negb_true_iff. intros [Hc Hd].
  rewrite <- contains_reverse, reverse_involutive, Hrev.
  rewrite (contains_lstrip d r _ Hd), <- Hrev, contains_reverse.
  by apply contains_lstrip.
Qed.

Lemma any_ext_in {A} (p q : A → bool) (xs : list A) :
  (∀ x, x ∈ xs → p x = q x) → any p xs = any q xs.
Proof.
  intros Hpq. apply eq_true_iff_eq. rewrite !any_spec.
  split; intros (x & Hx & Hp); exists x; (split; [done |]).
  - by rewrite <- Hpq.
  - by rewrite Hpq.
Qed.

Lemma bad_trimmed (x : pystr) : x ∈ bad → trimmed x = true.
Proof.
  intros Hx. assert (Hall : forallb trimmed bad = true) by reflexivity.
  rewrite forallb_forall in Hall. by apply Hall, list_elem_of_In.
Qed.

Lemma is_ascii_app (s s' : pystr) :
  is_ascii (s ++ s') = is_ascii s && is_ascii s'.
Proof. apply forallb_app. Qed.

Lemma is_ascii_elem (s : pystr) (c : N) : is_ascii s = true → c ∈ s → c < 128.
Proof.
  unfold is_ascii. rewrite forallb_forall. intros Hall Hc%list_elem_of_In.
  by apply N.ltb_lt, Hall.
Qed.

Lemma emoji_not_ascii (ch : N) : ch ∈ emoji_chars → 128 ≤ ch.
Proof.
  unfold emoji_chars. intros Hch.
  repeat (apply elem_of_cons in Hch as [-> | Hch]; [lia |]).
  by apply elem_of_nil in Hch.
Qed.

Section ascii_text.
Context `{PyStr}.

(** On ASCII text the trimming of [is_spam] changes nothing. *)
Lemma is_spam_untrimmed (s : pystr) :
  is_ascii s = true →
  is_spam s = any (λ x, contains x (ascii_lower s)) bad.
Proof.
  intros Hs. unfold is_spam.
  rewrite (lower_ascii s Hs), (strip_ascii _ (is_ascii_lower s Hs)).
  apply any_ext_in. intros x Hx. apply contains_ascii_strip, bad_trimmed, Hx.
Qed.

(** X5.  On ASCII text the verdict of the spam filter does not depend on
    the trimming: the text is spam exactly when one of the bad substrings
    occurs in the text with its letters lowered, leading and trailing
    white space included. *)
Theorem is_spam_ascii_iff (s : pystr) :
  is_ascii s = true →
  is_spam s = true ↔ ∃ x, x ∈ bad ∧ occurs_in x (ascii_lower s).
Proof.
  intros Hs. rewrite (is_spam_untrimmed s Hs), any_spec.
  split; intros (x & Hx & Hin); exists x; (split; [done |]);
    by apply contains_spec.
Qed.

(** X7.  On ASCII text the manual-reply flag is set exactly when an
    urgency substring occurs in the lowered text or the text itself is
    longer than 40 characters; the emoji test never fires. *)
Theorem needs_manual_reply_ascii_iff (s : pystr) :
  is_ascii s = true →
  needs_manual_reply s = true ↔
    (∃ w, w ∈ urgent_words ∧ occurs_in w (ascii_lower s)) ∨
    (40 < length s)%nat.
Proof.
  intros Hs. destruct (decide (s = [])) as [-> | Hne].
  { split; [done |]. intros [(w & Hw & Hin%contains_spec) | Hlen].
    - assert (Hnone : any (λ w, contains w []) urgent_words = false)
        by reflexivity.
      rewrite any_false_spec in Hnone.
      change (ascii_lower []) with (@nil N) in Hin.
      by rewrite (Hnone w Hw) in Hin.
    - simpl in Hlen. lia. }
  rewrite (needs_manual_reply_iff s Hne), (lower_ascii s Hs).
  unfold ascii_lower at 2. rewrite length_fmap.
  split; [| tauto].
  intros [? | [? | (ch & Hch & Hin)]]; [tauto | tauto |].
  pose proof (emoji_not_ascii ch Hch). pose proof (is_ascii_elem s ch Hs Hin).
  lia.
Qed.

(** X8.  Text added before or after an ASCII message never clears the
    manual-reply flag. *)
Theorem needs_manual_reply_padding (before s after : pystr) :
  is_ascii before = true →
  is_ascii s = true →
  is_ascii after = true →
  needs_manual_reply s = true →
  needs_manual_reply (before ++ s ++ after) = true.
Proof.
  intros Hb Hs Ha Hflag.
  assert (Hne : s ≠ []) by (by intros ->).
  assert (Hall : is_ascii (before ++ s ++ after) = true).
  { by rewrite !is_ascii_app, Hb, Hs, Ha. }
  apply needs_manual_reply_iff.
  { intros Hnil. apply app_eq_nil in Hnil as [_ Hnil].
    by apply app_eq_nil in Hnil as [? _]. }
  apply (needs_manual_reply_iff s Hne) in Hflag
    as [(w & Hw & Hin) | [Hlen | (ch & Hch & Hin)]].
  - left. exists w. split; [done |].
    rewrite (lower_ascii _ Hall). rewrite (lower_ascii s Hs) in Hin.
    unfold ascii_lower. rewrite !fmap_app. by apply occurs_in_app.
  - right; left. pose proof (lower_length s) as Hlow.
    rewrite (lower_ascii s Hs) in Hlen. rewrite (lower_ascii _ Hall).
    unfold ascii_lower in *. rewrite length_fmap in *.
    rewrite !length_app. lia.
  - right; right. exists ch. split; [done |].
    apply elem_of_app. right. apply elem_of_app. by left.
Qed.

End ascii_text.

(** ** The reply renderer on other templates *)

Lemma format_from_plain (kw : gmap pystr pystr) (c : N) (s : pystr) :
  is_brace c = false →
  format_from kw None (c :: s) = rest ← format_from kw None s; Ok (c :: rest).
Proof.
  unfold is_brace. intros [Hopen Hclose]%orb_false_iff.
  destruct s as [|d s].
  - cbn. by rewrite Hopen, Hclose.
  - by rewrite format_from_text, Hopen, Hclose.
Qed.

Lemma is_brace_inv (c : N) : is_brace c = true → c = 123 ∨ c = 125.
Proof.
  unfold is_brace. intros [Hc%N.eqb_eq | Hc%N.eqb_eq]%orb_true_iff; auto.
Qed.



(** X9.  A template without braces is rendered as it is, whatever the
    keyword arguments. *)
Theorem render_template_plain (t : pystr) (kw : gmap pystr pystr) :
  no_braces t = true → render_template t kw = Ok t.
Proof.
  unfold render_template, format, no_braces.
  induction t as [|c t IH]; [done |].
  cbn [forallb]. rewrite andb_true_iff, negb_true_iff. intros [Hc Ht].
  by rewrite (format_from_plain kw c t Hc), (IH Ht).
Qed.

(** X10.  Doubling the braces of a text gives a template that is rendered
    as that text: the escape of [str.format] undoes the doubling. *)
Theorem render_template_escape (s : pystr) (kw : gmap pystr pystr) :
  render_template (escape_braces s) kw = Ok s.
Proof.
  unfold render_template, format.
  induction s as [|c s IH]; [done |].
  cbn [escape_braces]. destruct (is_brace c) eqn:Hc.
  - apply is_brace_inv in Hc as [-> | ->];
      by rewrite format_from_text, IH.
  - by rewrite (format_from_plain kw c _ Hc), IH.
Qed.


(** ** The routes as a whole *)

Lemma dom_plain_payload (reply_text platform : pystr) (manual_required : bool) :
  dom (plain_payload reply_text platform manual_required) = plain_keys.
Proof.
  unfold plain_payload, plain_keys.
  rewrite !dom_insert_L, dom_singleton_L. set_solver.
Qed.

Lemma dom_nurse_payload (environ : gmap pystr pystr)
    (reply_text platform : pystr) (manual_required : bool) :
  dom (nurse_payload environ reply_text platform manual_required) = nurse_keys.
Proof.
  unfold nurse_payload, nurse_keys.
  rewrite !dom_insert_L, dom_singleton_L. set_solver.
Qed.

Lemma plain_payload_platform (reply_text platform platform' : pystr)
    (manual_required : bool) :
  <[str "platform" := VStr platform']>
    (plain_payload reply_text platform manual_required) =
  plain_payload reply_text platform' manual_required.
Proof. vm_compute. reflexivity. Qed.

Lemma nurse_payload_platform (environ : gmap pystr pystr)
    (reply_text platform platform' : pystr) (manual_required : bool) :
  <[str "platform" := VStr platform']>
    (nurse_payload environ reply_text platform manual_required) =
  nurse_payload environ reply_text platform' manual_required.
Proof.
  unfold nurse_payload. generalize (nurse_images environ). intros d.
  vm_compute. reflexivity.
Qed.

Lemma getenv_agree (environ environ' : gmap pystr pystr) (k default : pystr) :
  environ !! k = environ' !! k → getenv environ k default = getenv environ' k default.
Proof. intros Heq. unfold getenv. by rewrite Heq. Qed.

Section routes_more.
Context `{PyStr}.

(** X6.  Spam cannot be hidden by padding: an ASCII text around a spam
    text is spam, and the handler answers the boundary template for it. *)
Theorem is_spam_padding (environ : gmap pystr pystr) (who before s after : pystr)
    (headers : headers_t) :
  is_ascii before = true →
  is_ascii s = true →
  is_ascii after = true →
  is_spam s = true →
  is_spam (before ++ s ++ after) = true ∧
  reply environ {| name := who; text := before ++ s ++ after |} headers =
    Ok (plain_payload (boundary_text who) (detect_platform headers)
          (needs_manual_reply (before ++ s ++ after))).
Proof.
  intros Hb Hs Ha Hspam.
  assert (Hall : is_ascii (before ++ s ++ after) = true).
  { by rewrite !is_ascii_app, Hb, Hs, Ha. }
  assert (Hpadded : is_spam (before ++ s ++ after) = true).
  { rewrite (is_spam_untrimmed _ Hall). rewrite (is_spam_untrimmed s Hs) in Hspam.
    apply any_spec in Hspam as (x & Hx & Hin%contains_spec).
    apply any_spec. exists x. split; [done |]. apply contains_spec.
    unfold ascii_lower. rewrite !fmap_app. by apply occurs_in_app. }
  split; [exact Hpadded |]. by apply reply_spam.
Qed.

(** X12.  The name of the sender is copied into the reply as it is, after
    "Hello " or "Hey ": a name is never read as a template, whatever
    characters it holds. *)
Theorem reply_name_verbatim (environ : gmap pystr pystr) (msg : Message)
    (headers : headers_t) :
  ∃ p pre post,
    reply environ msg headers = Ok p ∧
    p !! str "reply" = Some (VStr (pre ++ name msg ++ post)) ∧
    pre ∈ [str "Hello "; str "Hey "].
Proof.
  rewrite reply_eq. cbv zeta.
  destruct (is_spam _); [| destruct (contains _ _); [| destruct (any _ _)]].
  - eexists _, (str "Hello "), _. split; [reflexivity |].
    split; [apply plain_payload_fields | by left].
  - eexists _, (str "Hello "), _. split; [reflexivity |].
    split; [apply nurse_payload_fields | by left].
  - eexists _, (str "Hey "), _. split; [reflexivity |].
    split; [apply plain_payload_fields | right; by left].
  - eexists _, (str "Hello "), _. split; [reflexivity |].
    split; [apply plain_payload_fields | by left].
Qed.

(** X13.  A response holds the keys reply, platform and manual_required,
    and the key nurse_images besides exactly when the text is not spam
    and mentions "nurse"; it never holds another key. *)
Theorem reply_keys (environ : gmap pystr pystr) (msg : Message)
    (headers : headers_t) :
  ∃ p,
    reply environ msg headers = Ok p ∧
    dom p =
      if negb (is_spam (text msg)) && contains (str "nurse") (lower (text msg))
      then nurse_keys else plain_keys.
Proof.
  rewrite reply_eq. cbv zeta. eexists. split; [reflexivity |].
  destruct (is_spam _); [apply dom_plain_payload |].
  destruct (contains _ _); [apply dom_nurse_payload |].
  destruct (any _ _); apply dom_plain_payload.
Qed.

(** X14.  The routes read five variables of the environment and nothing
    else: two environments that agree on them give the same responses of
    [/reply], [/test-nurse] and the health check. *)
Theorem routes_environ (environ environ' : gmap pystr pystr) (msg : Message)
    (headers : headers_t) :
  (∀ k, k ∈ config_names → environ !! k = environ' !! k) →
  reply environ msg headers = reply environ' msg headers ∧
  test_nurse environ headers = test_nurse environ' headers ∧
  health environ = health environ'.
Proof.
  intros Hagree.
  assert (Hbrand : BRAND_NAME environ = BRAND_NAME environ').
  { apply getenv_agree, Hagree. by left. }
  assert (Hmedia : NURSE_MEDIA_URL environ = NURSE_MEDIA_URL environ').
  { apply getenv_agree, Hagree. right; by left. }
  assert (Hcurtain : NURSE_CURTAIN_URL environ = NURSE_CURTAIN_URL environ').
  { apply getenv_agree, Hagree. do 2 right; by left. }
  assert (Hbed : NURSE_BED_URL environ = NURSE_BED_URL environ').
  { apply getenv_agree, Hagree. do 3 right; by left. }
  assert (Hnil : NURSE_NIL_URL environ = NURSE_NIL_URL environ').
  { apply getenv_agree, Hagree. do 4 right; by left. }
  split; [| split].
  - rewrite !reply_eq. unfold nurse_payload, nurse_images.
    rewrite Hbrand, Hmedia, Hcurtain, Hbed, Hnil. reflexivity.
  - unfold test_nurse. rewrite Hmedia, Hcurtain, Hbed, Hnil. reflexivity.
  - unfold health. rewrite Hbrand. reflexivity.
Qed.

(** X15.  The headers of a request reach the response through the platform
    entry only: the response for other headers is the same dictionary
    with the platform replaced. *)
Theorem reply_headers_platform (environ : gmap pystr pystr) (msg : Message)
    (headers headers' : headers_t) :
  ∃ p,
    reply environ msg headers = Ok p ∧
    reply environ msg headers' =
      Ok (<[str "platform" := VStr (detect_platform headers')]> p).
Proof.
  rewrite !reply_eq. cbv zeta. eexists. split; [reflexivity |]. f_equal.
  destruct (is_spam _); [by rewrite plain_payload_platform |].
  destruct (contains _ _); [by rewrite nurse_payload_platform |].
  destruct (any _ _); by rewrite plain_payload_platform.
Qed.

End routes_more.

(** ** The further properties at concrete requests *)

Lemma detect_platform_last_line_witness :
  lower (str "X-Hub-Signature") = hub_name ∧
  ¬ has_header [] hub_name ∧
  detect_platform hub_twice = str "facebook".
Proof.
  assert (Hk : lower (str "X-Hub-Signature") = hub_name) by reflexivity.
  assert (Hafter : ¬ has_header [] hub_name).
  { intros (k & v & Hin & _). by apply elem_of_nil in Hin. }
  split; [exact Hk |]. split; [exact Hafter |].
  exact (detect_platform_last_line (H:=ascii_pystr)
           [(str "x-hub-signature", str "instagram")] []
           (str "X-Hub-Signature") (str "sha1=abc") Hk Hafter).
Defined.

Lemma detect_platform_other_line_witness :
  lower content_type.1 ≠ hub_name ∧
  lower content_type.1 ≠ tiktok_name ∧
  lower content_type.1 ≠ twitter_name ∧
  detect_platform (hub_instagram ++ [content_type]) =
    detect_platform (hub_instagram ++ []).
Proof.
  assert (Hhub : lower content_type.1 ≠ hub_name) by discriminate.
  assert (Htiktok : lower content_type.1 ≠ tiktok_name) by discriminate.
  assert (Htwitter : lower content_type.1 ≠ twitter_name) by discriminate.
  split; [exact Hhub |]. split; [exact Htiktok |]. split; [exact Htwitter |].
  exact (detect_platform_other_line (H:=ascii_pystr) hub_instagram []
           content_type.1 content_type.2 Hhub Htiktok Htwitter).
Defined.

Lemma detect_platform_hub_wins_witness :
  has_header all_three hub_name ∧
  detect_platform all_three ∈ [str "instagram"; str "facebook"].
Proof.
  assert (Hhub : has_header all_three hub_name).
  { exists (str "X-Hub-Signature"), (str "sha1=abc").
    split; [right; by left | reflexivity]. }
  split; [exact Hhub |].
  exact (detect_platform_hub_wins (H:=ascii_pystr) all_three Hhub).
Defined.

Lemma detect_platform_names_case_witness :
  ascii_names shouted_names = true ∧
  ascii_names (lower_names shouted_names) = true ∧
  lower_names shouted_names = lower_names (lower_names shouted_names) ∧
  detect_platform shouted_names = detect_platform (lower_names shouted_names).
Proof.
  split; [reflexivity |]. split; [reflexivity |]. split; [reflexivity |].
  exact (detect_platform_names_case (H:=ascii_pystr) shouted_names
           (lower_names shouted_names) eq_refl eq_refl eq_refl).
Defined.

Lemma is_spam_ascii_iff_witness :
  is_ascii padded_spam = true ∧
  (is_spam padded_spam = true ↔
   ∃ x, x ∈ bad ∧ occurs_in x (ascii_lower padded_spam)).
Proof.
  split; [reflexivity |].
  exact (is_spam_ascii_iff (H:=ascii_pystr) padded_spam eq_refl).
Defined.

Lemma is_spam_padding_witness :
  is_ascii (str "  Free ") = true ∧
  is_ascii (str "CASINO") = true ∧
  is_ascii (str " chips  ") = true ∧
  is_spam (str "CASINO") = true ∧
  is_spam (str "  Free " ++ str "CASINO" ++ str " chips  ") = true.
Proof.
  do 4 (split; [reflexivity |]).
  exact (proj1 (is_spam_padding (H:=ascii_pystr) ∅ (str "Ana")
           (str "  Free ") (str "CASINO") (str " chips  ") []
           eq_refl eq_refl eq_refl eq_refl)).
Defined.

Lemma needs_manual_reply_ascii_iff_witness :
  is_ascii long_text = true ∧
  (needs_manual_reply long_text = true ↔
   (∃ w, w ∈ urgent_words ∧ occurs_in w (ascii_lower long_text)) ∨
   (40 < length long_text)%nat).
Proof.
  split; [reflexivity |].
  exact (needs_manual_reply_ascii_iff (H:=ascii_pystr) long_text eq_refl).
Defined.

Lemma needs_manual_reply_padding_witness :
  is_ascii (str "Hi! ") = true ∧
  is_ascii (str "Please call me") = true ∧
  is_ascii (str " tonight") = true ∧
  needs_manual_reply (str "Please call me") = true ∧
  needs_manual_reply (str "Hi! " ++ str "Please call me" ++ str " tonight") = true.
Proof.
  do 4 (split; [reflexivity |]).
  exact (needs_manual_reply_padding (H:=ascii_pystr)
           (str "Hi! ") (str "Please call me") (str " tonight")
           eq_refl eq_refl eq_refl eq_refl).
Defined.

Lemma render_template_plain_witness :
  no_braces (str "Thanks for writing.") = true ∧
  render_template (str "Thanks for writing.") (template_kw ∅ ana_hey) =
    Ok (str "Thanks for writing.").
Proof.
  split; [reflexivity |].
  exact (render_template_plain (str "Thanks for writing.")
           (template_kw ∅ ana_hey) eq_refl).
Defined.


Lemma routes_environ_witness :
  (∀ k, k ∈ config_names → (∅ : gmap pystr pystr) !! k = other_environ !! k) ∧
  reply ∅ ana_hey [] = reply other_environ ana_hey [].
Proof.
  assert (Hagree : ∀ k, k ∈ config_names →
    (∅ : gmap pystr pystr) !! k = other_environ !! k).
  { intros k Hk. unfold config_names in Hk.
    repeat (apply elem_of_cons in Hk as [-> | Hk]; [vm_compute; reflexivity |]).
    by apply elem_of_nil in Hk. }
  split; [exact Hagree |].
  exact (proj1 (routes_environ (H:=ascii_pystr) ∅ other_environ ana_hey []
                  Hagree)).
Defined.
